(** * todo-me Python client: a shallow embedding and its contract

    The development follows [docs/examples/python-client.py].  The class
    [TodoMeClient] is embedded method by method: Python values of JSON shape
    are an inductive type, dictionaries are finite maps, exceptions are the
    left summand of a result, and the two pieces of mutable state (the
    headers held by the client's session and the requests that went out on
    the wire) are threaded explicitly through a small state-and-error
    monad. *)

From stdpp Require Import base strings gmap list fin_maps pretty.
From Stdlib Require Import ZArith Ascii.

#[local] Set Warnings "-register-all".
#[local] Open Scope Z_scope.

(** ** Python values *)

(** A Python float, as far as the client can observe one: only
    its truth value (zero or not) matters to the code. *)
Inductive PyFloat : Type :=
  | FNan
  | FInf (negative : bool)
  | FFinite (negative : bool) (mantissa : N) (exponent : Z).

(** What [response.json()] can return, and what the client puts in request
    bodies and query mappings: [None], booleans, integers, floats, strings,
    lists and string-keyed dictionaries. *)
Inductive value : Type :=
  | VNone
  | VBool (b : bool)
  | VInt (n : Z)
  | VFloat (f : PyFloat)
  | VStr (s : string)
  | VList (l : list value)
  | VDict (d : gmap string value).

(** Python's truth protocol ([if x:], [not x]). *)
Class Truth (A : Type) := truth : A → bool.
#[global] Hint Mode Truth ! : typeclass_instances.

#[global] Instance truth_bool : Truth bool := λ b, b.
#[global] Instance truth_Z : Truth Z := λ n, negb (Z.eqb n 0).
#[global] Instance truth_string : Truth string :=
  λ s, match s with EmptyString => false | String _ _ => true end.
#[global] Instance truth_list {A} : Truth (list A) :=
  λ l, match l with [] => false | _ :: _ => true end.
#[global] Instance truth_float : Truth PyFloat :=
  λ f, match f with FFinite _ 0%N _ => false | _ => true end.
#[global] Instance truth_value : Truth value :=
  λ v, match v with
       | VNone => false
       | VBool b => truth b
       | VInt n => truth n
       | VFloat f => truth f
       | VStr s => truth s
       | VList l => truth l
       | VDict d => negb (bool_decide (d = ∅))
       end.

(** ** Exceptions *)

Inductive exn : Type :=
  | TodoMeError (code message details : value)
  | KeyError (key : string)
  | AttributeError (attr : string)
  | TypeError
  | TransportFailure (what : string).

(** ** The wire *)

Record Request : Type := mkRequest {
  req_method : string;
  req_url : string;
  req_headers : gmap string string;
  req_params : option (gmap string value);
  req_json : option value;
}.

(** The outcome of one exchange after [response.json()]: a parsed body, or
    a failure of the transport itself (no connection, a timeout, a body that
    is not JSON). *)
Inductive Reply : Type :=
  | Body (data : value)
  | Broken (what : string).

(** Keyword arguments that [_request] forwards to [session.request]. *)
Record Kwargs : Type := mkKwargs {
  params : option (gmap string value);
  json : option value;
}.

Definition no_kwargs : Kwargs := mkKwargs None None.
Definition with_params (p : gmap string value) : Kwargs := mkKwargs (Some p) None.
Definition with_json (j : value) : Kwargs := mkKwargs None (Some j).

(** ** The client object and the program state *)

Record Session : Type := mkSession { headers : gmap string string }.

Record TodoMeClient : Type := mkClient {
  base_url : string;
  session : Session;
}.

(** A method runs against its receiver and the log of requests sent. *)
Record State : Type := mkState {
  self : TodoMeClient;
  net : list Request;
}.

(** ** State and exceptions *)

Definition M (S A : Type) : Type := S → (exn + A) * S.

Definition ret {S A} (a : A) : M S A := λ s, (inr a, s).
Definition raise {S A} (e : exn) : M S A := λ s, (inl e, s).
Definition bind {S A B} (m : M S A) (k : A → M S B) : M S B :=
  λ s, match m s with
       | (inr a, s') => k a s'
       | (inl e, s') => (inl e, s')
       end.
Definition gets {S A} (f : S → A) : M S A := λ s, (inr (f s), s).
Definition modify {S} (f : S → S) : M S unit := λ s, (inr tt, f s).

#[global] Instance M_ret {S} : MRet (M S) := λ A, ret.
#[global] Instance M_bind {S} : MBind (M S) := λ A B k m, bind m k.

(** A class method works on the wire alone; a method of an instance lifts it. *)
Definition on_net {A} (m : M (list Request) A) : M State A :=
  λ st, let '(r, log) := m (net st) in (r, mkState (self st) log).

(** ** Python primitives used by the client *)

(** [s.lstrip(c)] and [s.rstrip(c)] for a one-character argument. *)
Fixpoint lstrip (c : ascii) (s : string) : string :=
  match s with
  | EmptyString => EmptyString
  | String a s' => if Ascii.eqb a c then lstrip c s' else s
  end.

Fixpoint rstrip (c : ascii) (s : string) : string :=
  match s with
  | EmptyString => EmptyString
  | String a s' =>
      match rstrip c s' with
      | EmptyString => if Ascii.eqb a c then EmptyString else String a EmptyString
      | r => String a r
      end
  end.

(** A run of [n] copies of one character, as the strip methods remove. *)
Fixpoint repeat_char (c : ascii) (n : nat) : string :=
  match n with
  | O => EmptyString
  | S n' => String c (repeat_char c n')
  end.

(** [sep.join(l)] on a list of strings. *)
Definition join (sep : string) (l : list string) : string := String.concat sep l.

(** [v.get(k, dflt)]: only a dictionary has the method. *)
Definition dict_get {S} (v : value) (k : string) (dflt : value) : M S value :=
  match v with
  | VDict d => ret (default dflt (d !! k))
  | _ => raise (AttributeError "get")
  end.

(** [v[k]] with a string key. *)
Definition getitem {S} (v : value) (k : string) : M S value :=
  match v with
  | VDict d => match d !! k with
               | Some x => ret x
               | None => raise (KeyError k)
               end
  | _ => raise TypeError
  end.

(** The part of the Python runtime and of the [requests] library that the
    client relies on without defining it. *)
Class PyRuntime : Type := {
  (** [datetime.datetime] and its [isoformat()] *)
  datetime : Type;
  isoformat : datetime → string;
  (** [str(v)] for a value that is not already a string *)
  str_of : value → string;
  (** the headers a fresh [requests.Session()] starts with *)
  default_headers : gmap string string;
}.

(** A runtime in which a datetime is carried as its ISO-8601 text. *)
Definition text_runtime : PyRuntime := {|
  datetime := string;
  isoformat := λ t, t;
  str_of := λ v, match v with
                 | VNone => "None"
                 | VBool true => "True"
                 | VBool false => "False"
                 | VInt n => pretty n
                 | _ => "<object>"
                 end;
  default_headers := {["Accept" := "*/*"; "Connection" := "keep-alive"]};
|}.

(** ** The client *)

Section Client.
Context {rt : PyRuntime}.

(** The remote service, seen from the client: the reply to the latest
    request, given everything that was sent so far. *)
Variable service : list Request → Reply.

(** A datetime object is always true. *)
#[global] Instance truth_datetime : Truth datetime := λ _, true.

(** [f"{v}"] *)
Definition fmt (v : value) : string :=
  match v with
  | VStr s => s
  | _ => str_of v
  end.

(** The text that [TodoMeError.__init__] hands on to [Exception]. *)
Definition error_text (code message : value) : string :=
  fmt code +:+ ": " +:+ fmt message.

(** One exchange: the request goes out, then [response.json()]. *)
Definition exchange (r : Request) : M (list Request) value :=
  λ log,
    let log' := log ++ [r] in
    match service log' with
    | Body data => (inr data, log')
    | Broken what => (inl (TransportFailure what), log')
    end.

(** [requests.post(url, json=...)], outside any session. *)
Definition requests_post (url : string) (body : value) : M (list Request) value :=
  exchange (mkRequest "POST" url default_headers None (Some body)).

(** [self.session.request(method, url, **kwargs)]: the session's headers
    travel with the request. *)
Definition session_request (method url : string) (kw : Kwargs) : M State value :=
  sess ← gets (λ st, session (self st));
  on_net (exchange (mkRequest method url (headers sess) (params kw) (json kw))).

(** [self.session.headers[k] = v] *)
Definition set_header (k v : string) : M State unit :=
  modify (λ st,
    mkState (mkClient (base_url (self st))
                      (mkSession (<[k := v]> (headers (session (self st))))))
            (net st)).

Definition __init__ (base_url : string) (api_token : value) : TodoMeClient :=
  mkClient (rstrip "/" base_url)
           (mkSession (<["Content-Type" := "application/json"]>
                       (<["Authorization" := "Bearer " +:+ fmt api_token]>
                        default_headers))).

Definition _request (method endpoint : string) (kw : Kwargs) : M State value :=
  base ← gets (λ st, base_url (self st));
  let url := base +:+ "/" +:+ lstrip "/" endpoint in
  data ← session_request method url kw;
  success ← dict_get data "success" VNone;
  if negb (truth success) then
    error ← dict_get data "error" (VDict ∅);
    code ← dict_get error "code" (VStr "UNKNOWN_ERROR");
    message ← dict_get error "message" (VStr "Unknown error");
    details ← dict_get error "details" VNone;
    raise (TodoMeError code message details)
  else
    dict_get data "data" (VDict ∅).

(** *** Authentication *)

Definition register (base_url email password : string) : M (list Request) TodoMeClient :=
  let url := rstrip "/" base_url +:+ "/auth/register" in
  data ← requests_post url (VDict {["email" := VStr email; "password" := VStr password]});
  success ← dict_get data "success" VNone;
  if negb (truth success) then
    error ← dict_get data "error" (VDict ∅);
    code ← dict_get error "code" VNone;
    message ← dict_get error "message" VNone;
    raise (TodoMeError code message VNone)
  else
    payload ← getitem data "data";
    token ← getitem payload "token";
    mret (__init__ base_url token).

Definition login (base_url email password : string) : M (list Request) TodoMeClient :=
  let url := rstrip "/" base_url +:+ "/auth/token" in
  data ← requests_post url (VDict {["email" := VStr email; "password" := VStr password]});
  success ← dict_get data "success" VNone;
  if negb (truth success) then
    error ← dict_get data "error" (VDict ∅);
    code ← dict_get error "code" VNone;
    message ← dict_get error "message" VNone;
    raise (TodoMeError code message VNone)
  else
    payload ← getitem data "data";
    token ← getitem payload "token";
    mret (__init__ base_url token).

Definition refresh_token : M State value :=
  data ← _request "POST" "/auth/refresh" no_kwargs;
  new_token ← getitem data "token";
  set_header "Authorization" ("Bearer " +:+ fmt new_token);;
  mret new_token.

(** *** Tasks *)

(** [if arg: d[k] = f(arg)] for an argument that defaults to [None]. *)
Definition put_if {A} `{Truth A} (arg : option A) (k : string) (f : A → value)
    (d : gmap string value) : gmap string value :=
  match arg with
  | Some a => if truth a then <[k := f a]> d else d
  | None => d
  end.

(** The query mapping that [list_tasks] builds before it calls out. *)
Definition list_tasks_params
    (status : option string) (priority_min priority_max : option Z)
    (project_id : option string) (tag_ids : option (list string))
    (search : option string) (due_before due_after : option datetime)
    (page limit : option Z) : gmap string value :=
  let page := default 1 page in
  let limit := default 20 limit in
  let params : gmap string value := {["page" := VInt page; "limit" := VInt limit]} in
  let params := put_if status "status" VStr params in
  let params := put_if priority_min "priority_min" VInt params in
  let params := put_if priority_max "priority_max" VInt params in
  let params := put_if project_id "project_ids" VStr params in
  let params := put_if tag_ids "tag_ids" (λ ids, VStr (join "," ids)) params in
  let params := put_if search "search" VStr params in
  let params := put_if due_before "due_before" (λ t, VStr (isoformat t)) params in
  let params := put_if due_after "due_after" (λ t, VStr (isoformat t)) params in
  params.

Definition list_tasks
    (status : option string) (priority_min priority_max : option Z)
    (project_id : option string) (tag_ids : option (list string))
    (search : option string) (due_before due_after : option datetime)
    (page limit : option Z) : M State value :=
  _request "GET" "/tasks"
    (with_params (list_tasks_params status priority_min priority_max project_id
                    tag_ids search due_before due_after page limit)).

Definition get_today_tasks : M State value :=
  _request "GET" "/tasks/today" no_kwargs.

Definition get_upcoming_tasks (days : option Z) : M State value :=
  let days := default 7 days in
  _request "GET" "/tasks/upcoming" (with_params {["days" := VInt days]}).

Definition get_overdue_tasks : M State value :=
  _request "GET" "/tasks/overdue" no_kwargs.

Definition get_task (task_id : string) : M State value :=
  _request "GET" ("/tasks/" +:+ task_id) no_kwargs.

(** The body that [create_task] builds before it calls out. *)
Definition create_task_data
    (title : string) (description : option string) (priority : option Z)
    (due_date : option datetime) (project_id : option string)
    (tag_ids : option (list string)) : gmap string value :=
  let priority := default 3 priority in
  let data : gmap string value := {["title" := VStr title; "priority" := VInt priority]} in
  let data := put_if description "description" VStr data in
  let data := put_if due_date "dueDate" (λ t, VStr (isoformat t)) data in
  let data := put_if project_id "projectId" VStr data in
  let data := put_if tag_ids "tagIds" (λ ids, VList (VStr <$> ids)) data in
  data.

Definition create_task
    (title : string) (description : option string) (priority : option Z)
    (due_date : option datetime) (project_id : option string)
    (tag_ids : option (list string)) : M State value :=
  _request "POST" "/tasks"
    (with_json (VDict (create_task_data title description priority due_date
                         project_id tag_ids))).

Definition create_task_natural (text : string) : M State value :=
  _request "POST" "/tasks?parse_natural_language=true"
    (with_json (VDict {["input_text" := VStr text]})).

Definition update_task (task_id : string) (updates : gmap string value) : M State value :=
  _request "PATCH" ("/tasks/" +:+ task_id) (with_json (VDict updates)).

Definition delete_task (task_id : string) : M State value :=
  _request "DELETE" ("/tasks/" +:+ task_id) no_kwargs.

Definition complete_task (task_id : string) : M State value :=
  _request "PATCH" ("/tasks/" +:+ task_id +:+ "/status")
    (with_json (VDict {["status" := VStr "completed"]})).

Definition uncomplete_task (task_id : string) : M State value :=
  _request "PATCH" ("/tasks/" +:+ task_id +:+ "/status")
    (with_json (VDict {["status" := VStr "pending"]})).

(** *** Batch operations *)

Definition batch_complete (task_ids : list string) : M State value :=
  let operations :=
    (λ tid, VDict {["action" := VStr "complete"; "taskId" := VStr tid]}) <$> task_ids in
  _request "POST" "/batch" (with_json (VDict {["operations" := VList operations]})).

Definition batch_delete (task_ids : list string) : M State value :=
  let operations :=
    (λ tid, VDict {["action" := VStr "delete"; "taskId" := VStr tid]}) <$> task_ids in
  _request "POST" "/batch" (with_json (VDict {["operations" := VList operations]})).

(** *** Search, parse, undo, projects, tags *)

Definition search (query : string) (limit : option Z) : M State value :=
  let limit := default 20 limit in
  _request "GET" "/search" (with_params {["q" := VStr query; "limit" := VInt limit]}).

Definition parse_natural (text : string) : M State value :=
  _request "POST" "/parse" (with_json (VDict {["text" := VStr text]})).

Definition undo (undo_token : string) : M State value :=
  _request "POST" ("/undo/" +:+ undo_token) no_kwargs.

Definition list_projects : M State value :=
  _request "GET" "/projects" no_kwargs.

Definition create_project_data
    (name : string) (description parent_id : option string) : gmap string value :=
  let data : gmap string value := {["name" := VStr name]} in
  let data := put_if description "description" VStr data in
  let data := put_if parent_id "parentId" VStr data in
  data.

Definition create_project
    (name : string) (description parent_id : option string) : M State value :=
  _request "POST" "/projects"
    (with_json (VDict (create_project_data name description parent_id))).

Definition list_tags : M State value :=
  _request "GET" "/tags" no_kwargs.

(** *** Calls, as a caller issues them *)

(** The methods of an instance that hand back whatever [_request]
    returns; [refresh_token], [register] and [login] work on the payload
    themselves and are kept apart. *)
Inductive Call : Type :=
  | ListTasks (status : option string) (priority_min priority_max : option Z)
      (project_id : option string) (tag_ids : option (list string))
      (search : option string) (due_before due_after : option datetime)
      (page limit : option Z)
  | GetTodayTasks
  | GetUpcomingTasks (days : option Z)
  | GetOverdueTasks
  | GetTask (task_id : string)
  | CreateTask (title : string) (description : option string) (priority : option Z)
      (due_date : option datetime) (project_id : option string)
      (tag_ids : option (list string))
  | CreateTaskNatural (text : string)
  | UpdateTask (task_id : string) (updates : gmap string value)
  | DeleteTask (task_id : string)
  | CompleteTask (task_id : string)
  | UncompleteTask (task_id : string)
  | BatchComplete (task_ids : list string)
  | BatchDelete (task_ids : list string)
  | Search (query : string) (limit : option Z)
  | ParseNatural (text : string)
  | Undo (undo_token : string)
  | ListProjects
  | CreateProject (name : string) (description parent_id : option string)
  | ListTags.

Definition run (c : Call) : M State value :=
  match c with
  | ListTasks status priority_min priority_max project_id tag_ids search
      due_before due_after page limit =>
      list_tasks status priority_min priority_max project_id tag_ids search
        due_before due_after page limit
  | GetTodayTasks => get_today_tasks
  | GetUpcomingTasks days => get_upcoming_tasks days
  | GetOverdueTasks => get_overdue_tasks
  | GetTask task_id => get_task task_id
  | CreateTask title description priority due_date project_id tag_ids =>
      create_task title description priority due_date project_id tag_ids
  | CreateTaskNatural text => create_task_natural text
  | UpdateTask task_id updates => update_task task_id updates
  | DeleteTask task_id => delete_task task_id
  | CompleteTask task_id => complete_task task_id
  | UncompleteTask task_id => uncomplete_task task_id
  | BatchComplete task_ids => batch_complete task_ids
  | BatchDelete task_ids => batch_delete task_ids
  | Search query limit => search query limit
  | ParseNatural text => parse_natural text
  | Undo undo_token => undo undo_token
  | ListProjects => list_projects
  | CreateProject name description parent_id =>
      create_project name description parent_id
  | ListTags => list_tags
  end.

(** A caller's script: every call runs in the state its predecessor
    left behind, whether that one returned or raised. *)
Fixpoint run_all (cs : list Call) (st : State) : State :=
  match cs with
  | [] => st
  | c :: cs' => run_all cs' (snd (run c st))
  end.

(** The two batch methods, by action. *)
Inductive Action : Type := Complete | Delete.

Definition action_name (a : Action) : string :=
  match a with Complete => "complete" | Delete => "delete" end.

Definition batch (a : Action) : list string → M State value :=
  match a with Complete => batch_complete | Delete => batch_delete end.

(** *** Observations on a run *)

(** The requests that went out between two states. *)
Definition sent_between (before after : State) : list Request :=
  drop (length (net before)) (net after).

(** The requests a computation sends when started in [st]. *)
Definition sent_by {A} (m : M State A) (st : State) : list Request :=
  sent_between st (snd (m st)).

(** What the service answers to the request a computation ends on. *)
Definition response_to {A} (m : M State A) (st : State) : Reply :=
  service (net (snd (m st))).

(** The request [_request] puts on the wire from [st]. *)
Definition request_of (st : State) (method endpoint : string) (kw : Kwargs) : Request :=
  mkRequest method (base_url (self st) +:+ "/" +:+ lstrip "/" endpoint)
    (headers (session (self st))) (params kw) (json kw).

(** The bearer header a state's client would attach. *)
Definition authorization (st : State) : option string :=
  headers (session (self st)) !! "Authorization".

(** Headers as the constructor sets them up: JSON content type and some
    bearer credential. *)
Definition bearer_json (h : gmap string string) : Prop :=
  h !! "Content-Type" = Some "application/json"
  ∧ ∃ t, h !! "Authorization" = Some ("Bearer " +:+ t).

(** A caller's script that may also refresh the credential on the way. *)
Inductive Step : Type :=
  | Do (c : Call)
  | Refresh.

Definition run_step (s : Step) (st : State) : State :=
  match s with
  | Do c => snd (run c st)
  | Refresh => snd (refresh_token st)
  end.

Fixpoint run_script (ss : list Step) (st : State) : State :=
  match ss with
  | [] => st
  | s :: ss' => run_script ss' (run_step s st)
  end.

(** The request [register] and [login] put on the wire. *)
Definition credentials_request (url email password : string) : Request :=
  mkRequest "POST" url default_headers None
    (Some (VDict {["email" := VStr email; "password" := VStr password]})).

End Client.

(** ** Scenarios *)

(** A service that answers every request with the same body. *)
Definition always (body : value) : list Request → Reply := λ _, Body body.

(** A service that cannot be reached. *)
Definition unreachable : list Request → Reply := λ _, Broken "connection refused".

(** A client as a caller constructs it, before any request. *)
Definition fresh (base_url token : string) : State :=
  mkState (__init__ (rt := text_runtime) base_url (VStr token)) [].

(** Unfolding of the monad's plumbing. *)
Ltac run_monad :=
  unfold mbind, M_bind, mret, M_ret, bind, ret, raise, gets, modify, on_net.

Ltac run_monad_in H :=
  unfold mbind, M_bind, mret, M_ret, bind, ret, raise, gets, modify, on_net in H.

(** The case analysis behind a client returned by [register] or [login]. *)
Ltac invert_credentials Hret env payload token Hreply Hok Hdata Htok :=
  unfold register, login, requests_post, exchange in Hret; run_monad_in Hret;
  match type of Hret with
  | context [match ?svc ?l with Body _ => _ | Broken _ => _ end] =>
      destruct (svc l) as [[| | | | | |env]|?] eqn:Hreply
  end; simpl in Hret; try done;
  destruct (truth (default VNone (env !! "success"))) eqn:Hok; simpl in Hret;
  [|by destruct (default (VDict ∅) (env !! "error"))];
  destruct (env !! "data") as [[| | | | | |payload]|] eqn:Hdata; simpl in Hret; try done;
  destruct (payload !! "token") as [token|] eqn:Htok; simpl in Hret; [|done];
  injection Hret as <-.

(** * Properties *)

Section Theory.
Context {rt : PyRuntime}.
Variable service : list Request → Reply.

(** ** The transport *)

(** [_request] sends exactly its one request and leaves the client as it
    was, whatever comes back. *)
Lemma _request_state method endpoint kw st :
  snd (_request service method endpoint kw st)
  = mkState (self st) (net st ++ [request_of st method endpoint kw]).
Proof.
  unfold _request, session_request, exchange, request_of. run_monad. simpl.
  destruct (service _) as [data|what]; simpl; [|done].
  destruct data; simpl; try done.
  destruct (negb _); simpl; [|done].
  by destruct (default (VDict ∅) (_ !! "error")).
Qed.

Lemma _request_sent method endpoint kw st :
  sent_by (_request service method endpoint kw) st = [request_of st method endpoint kw].
Proof.
  unfold sent_by, sent_between. rewrite _request_state. simpl.
  by rewrite drop_app_length.
Qed.

Lemma _request_response method endpoint kw st :
  response_to service (_request service method endpoint kw) st
  = service (net st ++ [request_of st method endpoint kw]).
Proof. unfold response_to. by rewrite _request_state. Qed.

(** ** The envelope *)

(** A truthy [success] unwraps [data], with the empty mapping as default. *)
Lemma _request_unwraps method endpoint kw st env :
  response_to service (_request service method endpoint kw) st = Body (VDict env) →
  truth (default VNone (env !! "success")) = true →
  fst (_request service method endpoint kw st) = inr (default (VDict ∅) (env !! "data")).
Proof.
  rewrite _request_response. intros Hreply Hok.
  unfold _request, session_request, exchange. run_monad. simpl.
  fold (request_of st method endpoint kw). rewrite Hreply. simpl.
  by rewrite Hok.
Qed.

(** A falsy or missing [success] raises the structured error, with the
    placeholders standing in for what the [error] object lacks. *)
Lemma _request_raises method endpoint kw st env err :
  response_to service (_request service method endpoint kw) st = Body (VDict env) →
  truth (default VNone (env !! "success")) = false →
  default (VDict ∅) (env !! "error") = VDict err →
  fst (_request service method endpoint kw st)
  = inl (TodoMeError (default (VStr "UNKNOWN_ERROR") (err !! "code"))
                     (default (VStr "Unknown error") (err !! "message"))
                     (default VNone (err !! "details"))).
Proof.
  rewrite _request_response. intros Hreply Hko Herr.
  unfold _request, session_request, exchange. run_monad. simpl.
  fold (request_of st method endpoint kw). rewrite Hreply. simpl.
  by rewrite Hko, Herr.
Qed.

(** A transport failure surfaces as it is. *)
Lemma _request_broken method endpoint kw st what :
  response_to service (_request service method endpoint kw) st = Broken what →
  fst (_request service method endpoint kw st) = inl (TransportFailure what).
Proof.
  rewrite _request_response. intros Hreply.
  unfold _request, session_request, exchange. run_monad. simpl.
  fold (request_of st method endpoint kw). by rewrite Hreply.
Qed.

(** ** Calls *)

(** Every call is one use of [_request]. *)
Lemma run_request c : ∃ method endpoint kw, run service c = _request service method endpoint kw.
Proof. destruct c; simpl; do 3 eexists; reflexivity. Qed.

Lemma run_state c st :
  ∃ r, snd (run service c st) = mkState (self st) (net st ++ [r])
       ∧ req_headers r = headers (session (self st)).
Proof.
  destruct (run_request c) as (m & e & kw & ->).
  exists (request_of st m e kw). by rewrite _request_state.
Qed.

Lemma run_all_state cs st :
  ∃ rs, run_all service cs st = mkState (self st) (net st ++ rs)
        ∧ Forall (λ r, req_headers r = headers (session (self st))) rs.
Proof.
  revert st. induction cs as [|c cs IH]; intros st; simpl.
  - exists []. rewrite app_nil_r. by destruct st.
  - destruct (run_state c st) as (r & -> & Hr).
    destruct (IH (mkState (self st) (net st ++ [r]))) as (rs & -> & Hrs).
    simpl in *. exists (r :: rs). split.
    + by rewrite <- app_assoc.
    + by constructor.
Qed.

(** ** Building a mapping from optional arguments *)

Lemma lookup_put_if_ne {A} `{Truth A} (arg : option A) k f d k' :
  k ≠ k' → put_if arg k f d !! k' = d !! k'.
Proof.
  intros Hne. unfold put_if. destruct arg as [a|]; [|done].
  destruct (truth a); [|done]. by rewrite lookup_insert_ne.
Qed.

Lemma lookup_put_if_eq {A} `{Truth A} (arg : option A) k f d :
  d !! k = None →
  put_if arg k f d !! k = (a ← arg; if truth a then Some (f a) else None).
Proof.
  intros Hd. unfold put_if. destruct arg as [a|]; simpl; [|done].
  destruct (truth a); [|done]. by rewrite lookup_insert_eq.
Qed.

Lemma dom_put_if {A} `{Truth A} (arg : option A) k f d :
  dom (put_if arg k f d) ⊆ {[k]} ∪ dom d.
Proof.
  unfold put_if. destruct arg as [a|]; [|set_solver].
  destruct (truth a); [|set_solver]. rewrite dom_insert_L. set_solver.
Qed.

(** A falsy argument leaves no trace: the mapping is the one built
    without it. *)
Lemma put_if_falsy {A} `{Truth A} (a : A) k f d :
  truth a = false → put_if (Some a) k f d = put_if None k f d.
Proof. intros Hf. unfold put_if. by rewrite Hf. Qed.

Lemma truth_string_nonempty (s : string) :
  truth s = bool_decide (s ≠ EmptyString).
Proof. by destruct s. Qed.

Lemma truth_list_nonempty {A} (l : list A) :
  truth l = true ↔ l ≠ [].
Proof. by destruct l. Qed.

Lemma truth_Z_nonzero (n : Z) :
  truth n = bool_decide (n ≠ 0).
Proof.
  unfold truth, truth_Z. case_bool_decide as Hn; destruct (Z.eqb_spec n 0); simpl; congruence.
Qed.

(** ** Listing tasks *)

Lemma list_tasks_sent status priority_min priority_max project_id tag_ids
    query due_before due_after page limit st :
  sent_by (list_tasks service status priority_min priority_max project_id tag_ids
             query due_before due_after page limit) st
  = [mkRequest "GET" (base_url (self st) +:+ "/tasks") (headers (session (self st)))
       (Some (list_tasks_params status priority_min priority_max project_id tag_ids
                query due_before due_after page limit))
       None].
Proof. unfold list_tasks. by rewrite _request_sent. Qed.

(** C9: a [list_tasks] call without any argument sends the query mapping
    [{page: 1, limit: 20}] and nothing else in it. *)
Theorem list_tasks_no_filters st :
  sent_by (list_tasks service None None None None None None None None None None) st
  = [mkRequest "GET" (base_url (self st) +:+ "/tasks") (headers (session (self st)))
       (Some {["page" := VInt 1; "limit" := VInt 20]}) None].
Proof. by rewrite list_tasks_sent. Qed.

(** C3 (amended): [list_tasks] guards [priority_min] by its truth value.
    The query mapping it sends carries [priority_min] with the caller's
    value exactly when one was supplied and is not zero; a supplied [0] is
    dropped, and the mapping is then the one of a call without
    [priority_min]. *)
Theorem list_tasks_priority_min status priority_min priority_max project_id tag_ids
    query due_before due_after page limit st :
  (∃ q, sent_by (list_tasks service status priority_min priority_max project_id
                   tag_ids query due_before due_after page limit) st
        = [mkRequest "GET" (base_url (self st) +:+ "/tasks")
             (headers (session (self st))) (Some q) None]
        ∧ q !! "priority_min"
          = (n ← priority_min; if decide (n = 0) then None else Some (VInt n)))
  ∧ list_tasks_params status (Some 0) priority_max project_id tag_ids
      query due_before due_after page limit
    = list_tasks_params status None priority_max project_id tag_ids
        query due_before due_after page limit.
Proof.
  split; [|done].
  eexists. split; [apply list_tasks_sent|].
  unfold list_tasks_params.
  do 6 (rewrite lookup_put_if_ne; [|done]).
  rewrite lookup_put_if_eq.
  - destruct priority_min as [n|]; simpl; [|done].
    rewrite truth_Z_nonzero. by repeat case_decide; case_bool_decide.
  - by rewrite lookup_put_if_ne.
Qed.

(** C7 (amended): a non-empty [project_id] reaches the query mapping
    unchanged under the parameter name [project_ids]; an empty one is
    dropped; no parameter is ever named [project_id]. *)
Theorem list_tasks_project_id status priority_min priority_max project_id tag_ids
    query due_before due_after page limit st :
  ∃ q, sent_by (list_tasks service status priority_min priority_max project_id
                  tag_ids query due_before due_after page limit) st
       = [mkRequest "GET" (base_url (self st) +:+ "/tasks")
            (headers (session (self st))) (Some q) None]
       ∧ q !! "project_ids"
         = (p ← project_id; if decide (p = EmptyString) then None else Some (VStr p))
       ∧ q !! "project_id" = None.
Proof.
  eexists. split; [apply list_tasks_sent|].
  unfold list_tasks_params. split.
  - do 4 (rewrite lookup_put_if_ne; [|done]).
    rewrite lookup_put_if_eq.
    + destruct project_id as [p|]; simpl; [|done].
      rewrite truth_string_nonempty. by case_decide; case_bool_decide.
    + by do 3 (rewrite lookup_put_if_ne; [|done]).
  - by do 8 (rewrite lookup_put_if_ne; [|done]).
Qed.

(** ** Creating a task *)

Lemma create_task_sent title description priority due_date project_id tag_ids st :
  sent_by (create_task service title description priority due_date project_id tag_ids) st
  = [mkRequest "POST" (base_url (self st) +:+ "/tasks") (headers (session (self st)))
       None
       (Some (VDict (create_task_data title description priority due_date
                       project_id tag_ids)))].
Proof. unfold create_task. by rewrite _request_sent. Qed.

(** C8 (amended): the body [create_task] sends always holds [title] and
    [priority] (3 unless the caller chose one, a chosen 0 included).  A due
    date is in the body exactly when one was supplied.  A description, a
    project reference and a tag list are in the body exactly when supplied
    and not empty: an empty string or an empty list is dropped like an
    omitted argument.  Whatever is left out is absent from the body, never
    sent as null, and the body has no other field. *)
Theorem create_task_body title description priority due_date project_id tag_ids st :
  ∃ body, sent_by (create_task service title description priority due_date
                     project_id tag_ids) st
          = [mkRequest "POST" (base_url (self st) +:+ "/tasks")
               (headers (session (self st))) None (Some (VDict body))]
    ∧ body !! "title" = Some (VStr title)
    ∧ body !! "priority" = Some (VInt (default 3 priority))
    ∧ body !! "description"
      = (s ← description; if decide (s = EmptyString) then None else Some (VStr s))
    ∧ body !! "dueDate" = (t ← due_date; Some (VStr (isoformat t)))
    ∧ body !! "projectId"
      = (p ← project_id; if decide (p = EmptyString) then None else Some (VStr p))
    ∧ body !! "tagIds"
      = (ids ← tag_ids; if decide (ids = []) then None else Some (VList (VStr <$> ids)))
    ∧ dom body ⊆ {["title"; "priority"; "description"; "dueDate"; "projectId"; "tagIds"]}.
Proof.
  eexists. split; [apply create_task_sent|].
  unfold create_task_data. repeat split.
  - by do 4 (rewrite lookup_put_if_ne; [|done]).
  - by do 4 (rewrite lookup_put_if_ne; [|done]).
  - do 3 (rewrite lookup_put_if_ne; [|done]).
    rewrite lookup_put_if_eq; [|done].
    destruct description as [s|]; simpl; [|done].
    rewrite truth_string_nonempty. by case_decide; case_bool_decide.
  - do 2 (rewrite lookup_put_if_ne; [|done]).
    rewrite lookup_put_if_eq; [|by rewrite lookup_put_if_ne].
    by destruct due_date.
  - rewrite lookup_put_if_ne; [|done].
    rewrite lookup_put_if_eq; [|by do 2 (rewrite lookup_put_if_ne; [|done])].
    destruct project_id as [p|]; simpl; [|done].
    rewrite truth_string_nonempty. by case_decide; case_bool_decide.
  - rewrite lookup_put_if_eq; [|by do 3 (rewrite lookup_put_if_ne; [|done])].
    destruct tag_ids as [[|id ids]|]; simpl; try done.
  - repeat (etrans; [apply dom_put_if|]; apply union_least; [set_solver|]).
    rewrite dom_insert_L, dom_singleton_L.
    intros k. rewrite !elem_of_union, !elem_of_singleton. tauto.
Qed.

(** ** Batch dispatch *)

Lemma batch_sent a task_ids st :
  sent_by (batch service a task_ids) st
  = [mkRequest "POST" (base_url (self st) +:+ "/batch") (headers (session (self st)))
       None
       (Some (VDict {["operations" :=
          VList ((λ tid, VDict {["action" := VStr (action_name a); "taskId" := VStr tid]})
                 <$> task_ids)]}))].
Proof. destruct a; unfold batch, batch_complete, batch_delete; by rewrite _request_sent. Qed.

(** C6: for either action, the batch dispatcher sends one request whose
    [operations] sequence has, at every position, the entry
    [{action, taskId}] of the id at that position: same length, same
    order. *)
Theorem batch_operations_in_order a task_ids st :
  ∃ operations,
    sent_by (batch service a task_ids) st
    = [mkRequest "POST" (base_url (self st) +:+ "/batch") (headers (session (self st)))
         None (Some (VDict {["operations" := VList operations]}))]
    ∧ operations
      = (λ tid, VDict {["action" := VStr (action_name a); "taskId" := VStr tid]})
        <$> task_ids
    ∧ length operations = length task_ids
    ∧ ∀ i, operations !! i
           = (λ tid, VDict {["action" := VStr (action_name a); "taskId" := VStr tid]})
             <$> task_ids !! i.
Proof.
  eexists. split; [apply batch_sent|]. split; [done|]. split.
  - apply length_fmap.
  - intros i. apply list_lookup_fmap.
Qed.

(** C4 (amended): an empty list of task ids is not rejected by the client.
    The batch dispatcher sends its one request all the same, with an empty
    [operations] sequence, and the outcome is the service's: on a
    successful envelope the call returns the [data] field. *)
Theorem empty_batch_is_submitted a st :
  sent_by (batch service a []) st
  = [mkRequest "POST" (base_url (self st) +:+ "/batch") (headers (session (self st)))
       None (Some (VDict {["operations" := VList []]}))]
  ∧ ∀ env,
      response_to service (batch service a []) st = Body (VDict env) →
      env !! "success" = Some (VBool true) →
      fst (batch service a [] st) = inr (default (VDict ∅) (env !! "data")).
Proof.
  split; [apply batch_sent|].
  intros env Hreply Hok.
  destruct a; unfold batch, batch_complete, batch_delete in *;
    apply _request_unwraps; try done; by rewrite Hok.
Qed.

(** ** Calls and the envelope *)

(** C1 (amended): when the body that answers a call has [success] present
    and true, every method that returns the result of [_request] (the
    task, batch, search, parse, undo, project and tag methods) returns
    exactly the [data] field, or an empty mapping when [data] is absent,
    and does not raise.  [refresh_token], [register] and [login] are not
    among them: they read [token] out of the payload. *)
Theorem call_returns_data_on_success c st env :
  response_to service (run service c) st = Body (VDict env) →
  env !! "success" = Some (VBool true) →
  fst (run service c st) = inr (default (VDict ∅) (env !! "data")).
Proof.
  destruct (run_request c) as (m & e & kw & ->).
  intros Hreply Hok. apply _request_unwraps; [done|]. by rewrite Hok.
Qed.

(** The part of the error contract that [_request] does keep: a body whose
    [success] is false or missing makes every such method raise the
    structured error, placeholders included. *)
Lemma call_raises_on_failure c st env err :
  response_to service (run service c) st = Body (VDict env) →
  env !! "success" = None ∨ env !! "success" = Some (VBool false) →
  env !! "error" = None ∧ err = ∅ ∨ env !! "error" = Some (VDict err) →
  fst (run service c st)
  = inl (TodoMeError (default (VStr "UNKNOWN_ERROR") (err !! "code"))
                     (default (VStr "Unknown error") (err !! "message"))
                     (default VNone (err !! "details"))).
Proof.
  destruct (run_request c) as (m & e & kw & ->).
  intros Hreply Hko Herr. apply _request_raises with env; [done| |].
  - by destruct Hko as [-> | ->].
  - by destruct Herr as [[-> ->] | ->].
Qed.

(** ** Registration and login *)


(** On a body whose [success] is false or missing, [register] and [login]
    raise with whatever [code] and [message] the [error] object has, [None]
    where it has none, and never with its [details]. *)
Lemma register_raises base email password log env err :
  service (log ++ [credentials_request (rstrip "/" base +:+ "/auth/register") email password])
    = Body (VDict env) →
  truth (default VNone (env !! "success")) = false →
  default (VDict ∅) (env !! "error") = VDict err →
  fst (register service base email password log)
  = inl (TodoMeError (default VNone (err !! "code")) (default VNone (err !! "message")) VNone).
Proof.
  intros Hreply Hko Herr.
  unfold register, requests_post, exchange, credentials_request in *. run_monad.
  rewrite Hreply. simpl. by rewrite Hko, Herr.
Qed.

Lemma login_raises base email password log env err :
  service (log ++ [credentials_request (rstrip "/" base +:+ "/auth/token") email password])
    = Body (VDict env) →
  truth (default VNone (env !! "success")) = false →
  default (VDict ∅) (env !! "error") = VDict err →
  fst (login service base email password log)
  = inl (TodoMeError (default VNone (err !! "code")) (default VNone (err !! "message")) VNone).
Proof.
  intros Hreply Hko Herr.
  unfold login, requests_post, exchange, credentials_request in *. run_monad.
  rewrite Hreply. simpl. by rewrite Hko, Herr.
Qed.

(** On a truthy [success] they build the client around [data.token]. *)
Lemma register_returns_client base email password log env payload token :
  service (log ++ [credentials_request (rstrip "/" base +:+ "/auth/register") email password])
    = Body (VDict env) →
  truth (default VNone (env !! "success")) = true →
  env !! "data" = Some (VDict payload) →
  payload !! "token" = Some token →
  fst (register service base email password log) = inr (__init__ base token).
Proof.
  intros Hreply Hok Hdata Htok.
  unfold register, requests_post, exchange, credentials_request in *. run_monad.
  rewrite Hreply. simpl. rewrite Hok. simpl. rewrite Hdata. simpl. by rewrite Htok.
Qed.

(** ** Refreshing the credential *)

(** [refresh_token], step by step: its request goes out under the current
    headers; only after the payload has yielded a [token] is the
    [Authorization] header rewritten. *)
Lemma refresh_token_run st :
  let st1 := mkState (self st) (net st ++ [request_of st "POST" "/auth/refresh" no_kwargs]) in
  refresh_token service st
  = match fst (_request service "POST" "/auth/refresh" no_kwargs st) with
    | inl e => (inl e, st1)
    | inr (VDict d) =>
        match d !! "token" with
        | Some new_token =>
            (inr new_token,
             mkState (mkClient (base_url (self st))
                        (mkSession (<["Authorization" := "Bearer " +:+ fmt new_token]>
                                    (headers (session (self st))))))
                     (net st1))
        | None => (inl (KeyError "token"), st1)
        end
    | inr _ => (inl TypeError, st1)
    end.
Proof.
  intros st1. unfold refresh_token. run_monad.
  pose proof (_request_state "POST" "/auth/refresh" no_kwargs st) as Hst.
  destruct (_request service "POST" "/auth/refresh" no_kwargs st) as [[e|data] s1];
    simpl in Hst; subst s1; fold st1; simpl; [done|].
  destruct data as [| | | | | |d]; try done.
  unfold getitem. by destruct (d !! "token").
Qed.

Lemma refresh_token_sent st :
  sent_by (refresh_token service) st = [request_of st "POST" "/auth/refresh" no_kwargs].
Proof.
  unfold sent_by, sent_between. rewrite refresh_token_run.
  destruct (fst _) as [e|[| | | | | |d]]; simpl; try by rewrite drop_app_length.
  destruct (d !! "token"); simpl; by rewrite drop_app_length.
Qed.

Lemma sent_between_run_all cs st :
  Forall (λ r, req_headers r = headers (session (self st)))
         (sent_between st (run_all service cs st)).
Proof.
  destruct (run_all_state cs st) as (rs & -> & Hrs).
  unfold sent_between. simpl. by rewrite drop_app_length.
Qed.

(** A sequence of calls, request by request: one per call, each under the
    headers the client held at the start. *)
Lemma run_all_trace cs st :
  ∃ rs, run_all service cs st = mkState (self st) (net st ++ rs)
        ∧ length rs = length cs
        ∧ Forall (λ r, req_headers r = headers (session (self st))) rs.
Proof.
  revert st. induction cs as [|c cs IH]; intros st; simpl.
  - exists []. rewrite app_nil_r. by destruct st.
  - destruct (run_state c st) as (r & -> & Hr).
    destruct (IH (mkState (self st) (net st ++ [r]))) as (rs & -> & Hlen & Hrs).
    simpl in *. exists (r :: rs). split_and!.
    + by rewrite <- app_assoc.
    + simpl. by rewrite Hlen.
    + by constructor.
Qed.

(** C5: once [refresh_token] has returned a token, the client holds
    [Bearer <token>] as its [Authorization] header.  From then on every
    call, after any number of earlier calls and whether it returns or
    raises, sends exactly one request, and that request carries this
    header; a sequence of calls sends as many requests as it has calls, all
    with this header, and none with the header held before when the two
    differ.  A later [refresh_token] sends its one request under this
    header as well. *)
Theorem refresh_token_then_calls st new_token st' :
  refresh_token service st = (inr new_token, st') →
  authorization st' = Some ("Bearer " +:+ fmt new_token)
  ∧ (∀ cs, Forall (λ r, req_headers r !! "Authorization"
                        = Some ("Bearer " +:+ fmt new_token))
                  (sent_between st' (run_all service cs st')))
  ∧ (∀ old cs, authorization st = Some old →
               old ≠ "Bearer " +:+ fmt new_token →
               Forall (λ r, req_headers r !! "Authorization" ≠ Some old)
                      (sent_between st' (run_all service cs st')))
  ∧ Forall (λ r, req_headers r !! "Authorization" = Some ("Bearer " +:+ fmt new_token))
           (sent_by (refresh_token service) st')
  ∧ (∀ cs c, ∃ r,
       sent_by (run service c) (run_all service cs st') = [r]
       ∧ req_headers r !! "Authorization" = Some ("Bearer " +:+ fmt new_token))
  ∧ (∀ cs, length (sent_between st' (run_all service cs st')) = length cs)
  ∧ (∃ r, sent_by (refresh_token service) st' = [r]
          ∧ req_headers r !! "Authorization" = Some ("Bearer " +:+ fmt new_token)).
Proof.
  rewrite refresh_token_run. intros Hrun.
  assert (authorization st' = Some ("Bearer " +:+ fmt new_token)) as Hauth.
  { destruct (fst _) as [e|[| | | | | |d]]; try done.
    destruct (d !! "token") as [tok|]; [|done].
    injection Hrun as <- <-. unfold authorization. simpl. apply lookup_insert_eq. }
  assert (∀ cs, Forall (λ r, req_headers r !! "Authorization"
                             = Some ("Bearer " +:+ fmt new_token))
                       (sent_between st' (run_all service cs st'))) as Hcalls.
  { intros cs. eapply Forall_impl; [apply sent_between_run_all|].
    simpl. by intros r ->. }
  split_and!; [done|done| | | | |].
  - intros old cs _ Hne. eapply Forall_impl; [apply Hcalls|].
    simpl. intros r -> [= <-]. by apply Hne.
  - rewrite refresh_token_sent. by repeat constructor.
  - intros cs c.
    destruct (run_all_trace cs st') as (rs & -> & _ & _).
    destruct (run_state c (mkState (self st') (net st' ++ rs))) as (r & Hst & Hr).
    exists r. split.
    + unfold sent_by, sent_between. rewrite Hst. simpl. by rewrite drop_app_length.
    + by rewrite Hr.
  - intros cs. destruct (run_all_trace cs st') as (rs & -> & Hlen & _).
    unfold sent_between. simpl. by rewrite drop_app_length.
  - eexists. split; [apply refresh_token_sent|done].
Qed.

(** C10: a [refresh_token] that raises, for whatever reason, leaves the
    client exactly as it was: the [Authorization] header is the one held
    before, and every request sent afterwards carries the headers held
    before. *)
Theorem refresh_token_failure_keeps_credential st e st' :
  refresh_token service st = (inl e, st') →
  self st' = self st
  ∧ authorization st' = authorization st
  ∧ ∀ cs, Forall (λ r, req_headers r = headers (session (self st)))
                 (sent_between st' (run_all service cs st')).
Proof.
  rewrite refresh_token_run. intros Hrun.
  assert (self st' = self st) as Hself.
  { destruct (fst _) as [e0|[| | | | | |d]]; try by injection Hrun as <- <-.
    destruct (d !! "token"); [done|]. by injection Hrun as <- <-. }
  split_and!; [done|by unfold authorization; rewrite Hself|].
  intros cs. rewrite <- Hself. apply sent_between_run_all.
Qed.

(** The two named ways for [refresh_token] to fail do make it raise: an
    envelope that reports failure, and a successful one whose payload has
    no [token]. *)
Lemma refresh_token_envelope_failure st env err :
  response_to service (refresh_token service) st = Body (VDict env) →
  env !! "success" = None ∨ env !! "success" = Some (VBool false) →
  env !! "error" = None ∧ err = ∅ ∨ env !! "error" = Some (VDict err) →
  fst (refresh_token service st)
  = inl (TodoMeError (default (VStr "UNKNOWN_ERROR") (err !! "code"))
                     (default (VStr "Unknown error") (err !! "message"))
                     (default VNone (err !! "details"))).
Proof.
  unfold response_to. rewrite refresh_token_run. intros Hreply Hko Herr.
  rewrite (_request_raises _ _ _ _ env err).
  - done.
  - rewrite _request_response.
    destruct (fst _) as [e0|[| | | | | |d]]; try done. by destruct (d !! "token").
  - by destruct Hko as [-> | ->].
  - by destruct Herr as [[-> ->] | ->].
Qed.

Lemma refresh_token_missing_token st env payload :
  response_to service (refresh_token service) st = Body (VDict env) →
  env !! "success" = Some (VBool true) →
  default (VDict ∅) (env !! "data") = VDict payload →
  payload !! "token" = None →
  fst (refresh_token service st) = inl (KeyError "token").
Proof.
  unfold response_to. rewrite refresh_token_run. intros Hreply Hok Hdata Htok.
  rewrite (_request_unwraps _ _ _ _ env).
  - by rewrite Hdata, Htok.
  - rewrite _request_response.
    destruct (fst _) as [e0|[| | | | | |d]]; try done. by destruct (d !! "token").
  - by rewrite Hok.
Qed.

(** ** Joining the base URL and the path *)

Lemma append_empty_l (x : string) : EmptyString +:+ x = x.
Proof. reflexivity. Qed.

Lemma append_cons (a : ascii) (s x : string) : String a s +:+ x = String a (s +:+ x).
Proof. reflexivity. Qed.

Lemma rstrip_tail c s : ∃ n, s = rstrip c s +:+ repeat_char c n.
Proof.
  induction s as [|a s [n IH]]; simpl.
  - by exists 0%nat.
  - destruct (rstrip c s) as [|b r] eqn:Hr.
    + rewrite append_empty_l in IH.
      destruct (Ascii.eqb_spec a c) as [->|Hne].
      * exists (S n). rewrite append_empty_l. simpl. by rewrite <- IH.
      * exists n. rewrite append_cons, append_empty_l. by rewrite <- IH.
    + exists n. rewrite append_cons. by rewrite <- IH.
Qed.

Lemma rstrip_no_trailing c s x : rstrip c s ≠ x +:+ String c EmptyString.
Proof.
  revert x. induction s as [|a s IH]; intros x; simpl.
  - destruct x; [rewrite append_empty_l|rewrite append_cons]; done.
  - destruct (rstrip c s) as [|b r] eqn:Hr.
    + destruct (Ascii.eqb_spec a c) as [->|Hne].
      * destruct x; [rewrite append_empty_l|rewrite append_cons]; done.
      * destruct x as [|a' x]; [rewrite append_empty_l; congruence|].
        rewrite append_cons. intros [= _ Heq]. by apply (IH x).
    + destruct x as [|a' x]; [rewrite append_empty_l; congruence|].
      rewrite append_cons. intros [= _ Heq]. by apply (IH x).
Qed.

Lemma lstrip_head c s : ∃ n, s = repeat_char c n +:+ lstrip c s.
Proof.
  induction s as [|a s [n IH]]; simpl.
  - by exists 0%nat.
  - destruct (Ascii.eqb_spec a c) as [->|Hne].
    + exists (S n). simpl. rewrite append_cons. by rewrite <- IH.
    + by exists 0%nat.
Qed.

Lemma lstrip_no_leading c s x : lstrip c s ≠ String c x.
Proof.
  induction s as [|a s IH]; simpl; [done|].
  destruct (Ascii.eqb_spec a c) as [->|Hne]; [done|congruence].
Qed.

(** X1: a client built from [base] sends [_request(method, endpoint)] to
    the base without its trailing slashes, one slash, and the endpoint
    without its leading slashes: however many slashes the caller wrote on
    either side, exactly one separates the two parts. *)
Theorem request_url_join base token method endpoint kw log :
  ∃ u p i j,
    base = u +:+ repeat_char "/" i
    ∧ endpoint = repeat_char "/" j +:+ p
    ∧ (∀ x, u ≠ x +:+ "/")
    ∧ (∀ x, p ≠ "/" +:+ x)
    ∧ sent_by (_request service method endpoint kw) (mkState (__init__ base token) log)
      = [mkRequest method (u +:+ "/" +:+ p)
           (headers (session (__init__ base token))) (params kw) (json kw)].
Proof.
  destruct (rstrip_tail "/" base) as [i Hi].
  destruct (lstrip_head "/" endpoint) as [j Hj].
  exists (rstrip "/" base), (lstrip "/" endpoint), i, j.
  split_and!; [done|done| | |].
  - intros x. apply rstrip_no_trailing.
  - intros x. apply lstrip_no_leading.
  - by rewrite _request_sent.
Qed.

(** ** One request per call *)

Lemma run_all_log cs st :
  ∃ rs, run_all service cs st = mkState (self st) (net st ++ rs)
        ∧ length rs = length cs.
Proof.
  revert st. induction cs as [|c cs IH]; intros st; simpl.
  - exists []. rewrite app_nil_r. by destruct st.
  - destruct (run_state c st) as (r & -> & _).
    destruct (IH (mkState (self st) (net st ++ [r]))) as (rs & -> & Hlen).
    simpl in *. exists (r :: rs). split; [by rewrite <- app_assoc|].
    simpl. by rewrite Hlen.
Qed.

(** X2: a sequence of calls puts exactly one request per call on the wire,
    whether the calls return or raise (nothing is retried, nothing is
    skipped), keeps what was sent before, and leaves the client object as
    it was. *)
Theorem calls_send_one_request_each cs st :
  self (run_all service cs st) = self st
  ∧ net (run_all service cs st) = net st ++ sent_between st (run_all service cs st)
  ∧ length (sent_between st (run_all service cs st)) = length cs.
Proof.
  destruct (run_all_log cs st) as (rs & -> & Hlen).
  unfold sent_between. simpl. by rewrite drop_app_length.
Qed.

(** ** The envelope, case by case *)

(** X3: on a body that is a JSON object, [_request] decides by the truth
    value of [success] and by nothing else.  Any truthy value (not only
    [true]) returns [data], whatever [error] holds; any falsy or missing one
    raises, whatever [data] holds: [TodoMeError] with the placeholders when
    [error] is an object or missing, and [AttributeError] when [error] is
    present but not an object. *)
Theorem _request_by_truth_of_success method endpoint kw st env :
  response_to service (_request service method endpoint kw) st = Body (VDict env) →
  fst (_request service method endpoint kw st)
  = if truth (default VNone (env !! "success"))
    then inr (default (VDict ∅) (env !! "data"))
    else match default (VDict ∅) (env !! "error") with
         | VDict err =>
             inl (TodoMeError (default (VStr "UNKNOWN_ERROR") (err !! "code"))
                              (default (VStr "Unknown error") (err !! "message"))
                              (default VNone (err !! "details")))
         | _ => inl (AttributeError "get")
         end.
Proof.
  rewrite _request_response. intros Hreply.
  unfold _request, session_request, exchange. run_monad. simpl.
  fold (request_of st method endpoint kw). rewrite Hreply. simpl.
  destruct (truth (default VNone (env !! "success"))); simpl; [done|].
  by destruct (default (VDict ∅) (env !! "error")).
Qed.

(** X4: a body that parses as JSON but is not an object (a list, a string,
    a number, [null]) makes [_request] raise [AttributeError], not
    [TodoMeError]. *)
Theorem _request_non_object_body method endpoint kw st body :
  response_to service (_request service method endpoint kw) st = Body body →
  (∀ env, body ≠ VDict env) →
  fst (_request service method endpoint kw st) = inl (AttributeError "get").
Proof.
  rewrite _request_response. intros Hreply Hbody.
  unfold _request, session_request, exchange. run_monad. simpl.
  fold (request_of st method endpoint kw). rewrite Hreply. simpl.
  destruct body; try done. by destruct (Hbody d).
Qed.

(** X5: a failure of the transport reaches the caller of any method as it
    is, after the one request has gone out; the client is not touched and
    nothing is sent a second time. *)
Theorem call_transport_failure c st what :
  response_to service (run service c) st = Broken what →
  fst (run service c st) = inl (TransportFailure what)
  ∧ self (snd (run service c st)) = self st
  ∧ length (sent_by (run service c) st) = 1%nat.
Proof.
  destruct (run_request c) as (m & e & kw & ->). intros Hreply.
  split_and!.
  - by apply _request_broken.
  - by rewrite _request_state.
  - by rewrite _request_sent.
Qed.

(** ** Registration and login, case by case *)

Lemma init_authorization base token :
  headers (session (__init__ base token)) !! "Authorization"
  = Some ("Bearer " +:+ fmt token).
Proof. simpl. rewrite lookup_insert_ne; [|done]. apply lookup_insert_eq. Qed.

Lemma init_content_type base token :
  headers (session (__init__ base token)) !! "Content-Type" = Some "application/json".
Proof. simpl. apply lookup_insert_eq. Qed.

(** X6: [register] and [login] each put exactly one request on the wire,
    whatever the answer: a POST of [{email, password}] to the base without
    its trailing slashes plus [/auth/register], respectively [/auth/token].
    The code adds no header of its own to the library's defaults: no
    session is involved, hence no bearer credential. *)
Theorem credentials_sent base email password log :
  snd (register service base email password log)
  = log ++ [mkRequest "POST" (rstrip "/" base +:+ "/auth/register") default_headers None
              (Some (VDict {["email" := VStr email; "password" := VStr password]}))]
  ∧ snd (login service base email password log)
    = log ++ [mkRequest "POST" (rstrip "/" base +:+ "/auth/token") default_headers None
                (Some (VDict {["email" := VStr email; "password" := VStr password]}))].
Proof.
  split.
  all: unfold register, login, requests_post, exchange; run_monad.
  all: destruct (service _) as [data|what]; simpl; [|done].
  all: destruct data as [| | | | | |env]; simpl; try done.
  all: destruct (negb _); simpl.
  all: try by destruct (default (VDict ∅) (env !! "error")).
  all: destruct (env !! "data") as [[| | | | | |payload]|]; simpl; try done.
  all: by destruct (payload !! "token").
Qed.

(** X7: whenever [register] returns a client, the service did answer with
    a truthy [success] and a [data] object holding a [token]; the client is
    the one the constructor builds from the base URL and that token, and
    every request it sends afterwards carries [Bearer <token>]. *)
Theorem register_returns_authenticated_client base email password log client :
  fst (register service base email password log) = inr client →
  ∃ env payload token,
    service (log ++ [credentials_request (rstrip "/" base +:+ "/auth/register")
                       email password]) = Body (VDict env)
    ∧ truth (default VNone (env !! "success")) = true
    ∧ env !! "data" = Some (VDict payload)
    ∧ payload !! "token" = Some token
    ∧ client = __init__ base token
    ∧ ∀ log' cs,
        Forall (λ r, req_headers r !! "Authorization" = Some ("Bearer " +:+ fmt token))
               (sent_between (mkState client log')
                  (run_all service cs (mkState client log'))).
Proof.
  intros Hret. invert_credentials Hret env payload token Hreply Hok Hdata Htok.
  exists env, payload, token. split_and!; try done.
  intros log' cs. eapply Forall_impl; [apply sent_between_run_all|].
  intros r ->. apply init_authorization.
Qed.

(** X8: the same for [login]. *)
Theorem login_returns_authenticated_client base email password log client :
  fst (login service base email password log) = inr client →
  ∃ env payload token,
    service (log ++ [credentials_request (rstrip "/" base +:+ "/auth/token")
                       email password]) = Body (VDict env)
    ∧ truth (default VNone (env !! "success")) = true
    ∧ env !! "data" = Some (VDict payload)
    ∧ payload !! "token" = Some token
    ∧ client = __init__ base token
    ∧ ∀ log' cs,
        Forall (λ r, req_headers r !! "Authorization" = Some ("Bearer " +:+ fmt token))
               (sent_between (mkState client log')
                  (run_all service cs (mkState client log'))).
Proof.
  intros Hret. invert_credentials Hret env payload token Hreply Hok Hdata Htok.
  exists env, payload, token. split_and!; try done.
  intros log' cs. eapply Forall_impl; [apply sent_between_run_all|].
  intros r ->. apply init_authorization.
Qed.

(** X9: a successful envelope is not enough for [register] and [login]:
    without a [data] field they raise [KeyError('data')], with a [data]
    object that has no [token] they raise [KeyError('token')], and no
    client is built. *)
Theorem credentials_missing_payload base email password log env :
  service (log ++ [credentials_request (rstrip "/" base +:+ "/auth/register")
                     email password]) = Body (VDict env) →
  service (log ++ [credentials_request (rstrip "/" base +:+ "/auth/token")
                     email password]) = Body (VDict env) →
  truth (default VNone (env !! "success")) = true →
  (env !! "data" = None →
     fst (register service base email password log) = inl (KeyError "data")
     ∧ fst (login service base email password log) = inl (KeyError "data"))
  ∧ (∀ payload, env !! "data" = Some (VDict payload) → payload !! "token" = None →
     fst (register service base email password log) = inl (KeyError "token")
     ∧ fst (login service base email password log) = inl (KeyError "token")).
Proof.
  intros Hreg Hlog Hok.
  unfold register, login, requests_post, exchange, credentials_request in *. run_monad.
  rewrite Hreg, Hlog. simpl. rewrite Hok. simpl. split.
  - by intros ->.
  - intros payload -> Htok. simpl. by rewrite Htok.
Qed.

(** ** Refreshing, case by case *)

(** X10: when the refresh request is answered by a truthy [success] and a
    [data] object holding [token], [refresh_token] returns that token; the
    request itself went out once, under the headers held before (the old
    credential); afterwards the base URL is the same, [Authorization] is
    [Bearer <token>] and every other header is as it was. *)
Theorem refresh_token_success st env payload token :
  response_to service (refresh_token service) st = Body (VDict env) →
  truth (default VNone (env !! "success")) = true →
  env !! "data" = Some (VDict payload) →
  payload !! "token" = Some token →
  fst (refresh_token service st) = inr token
  ∧ sent_by (refresh_token service) st
    = [mkRequest "POST" (base_url (self st) +:+ "/auth/refresh")
         (headers (session (self st))) None None]
  ∧ base_url (self (snd (refresh_token service st))) = base_url (self st)
  ∧ authorization (snd (refresh_token service st)) = Some ("Bearer " +:+ fmt token)
  ∧ ∀ k, k ≠ "Authorization" →
         headers (session (self (snd (refresh_token service st)))) !! k
         = headers (session (self st)) !! k.
Proof.
  intros Hreply Hok Hdata Htok.
  split_and!; [| by rewrite refresh_token_sent | | |].
  all: revert Hreply; unfold response_to, authorization; rewrite refresh_token_run.
  all: intros Hreply; rewrite (_request_unwraps _ _ _ _ env);
    [ | rewrite _request_response;
        by destruct (fst _) as [e0|[| | | | | |d]]; try done; destruct (d !! "token")
      | done ].
  all: rewrite Hdata; simpl; rewrite Htok; simpl; try done.
  - apply lookup_insert_eq.
  - intros k Hk. by rewrite lookup_insert_ne.
Qed.

(** X11: a truthy [success] whose [data] is present but not an object
    ([null], a string, a list) makes [refresh_token] raise [TypeError]
    after its request has gone out, and the credential stays as it was. *)
Theorem refresh_token_non_object_payload st env payload :
  response_to service (refresh_token service) st = Body (VDict env) →
  truth (default VNone (env !! "success")) = true →
  env !! "data" = Some payload →
  (∀ d, payload ≠ VDict d) →
  fst (refresh_token service st) = inl TypeError
  ∧ self (snd (refresh_token service st)) = self st.
Proof.
  intros Hreply Hok Hdata Hpayload.
  revert Hreply. unfold response_to. rewrite refresh_token_run. intros Hreply.
  rewrite (_request_unwraps _ _ _ _ env);
    [ | rewrite _request_response;
        by destruct (fst _) as [e0|[| | | | | |d]]; try done; destruct (d !! "token")
      | done ].
  rewrite Hdata. simpl.
  destruct payload as [| | | | | |d]; try done. by destruct (Hpayload d).
Qed.

(** ** The query of [list_tasks], parameter by parameter *)

(** X12: [page] and [limit] are in every query mapping, with the caller's
    values as they are (zero and negative ones too) or 1 and 20 when
    omitted. *)
Theorem list_tasks_pagination status priority_min priority_max project_id tag_ids
    query due_before due_after page limit :
  list_tasks_params status priority_min priority_max project_id tag_ids
    query due_before due_after page limit !! "page" = Some (VInt (default 1 page))
  ∧ list_tasks_params status priority_min priority_max project_id tag_ids
      query due_before due_after page limit !! "limit" = Some (VInt (default 20 limit)).
Proof.
  unfold list_tasks_params. split; by do 8 (rewrite lookup_put_if_ne; [|done]).
Qed.

Lemma append_empty_r (x : string) : x +:+ EmptyString = x.
Proof. induction x as [|a x IH]; [done|]. by rewrite append_cons, IH. Qed.

Lemma join_cons sep id rest :
  join sep (id :: rest) = id +:+ foldr (λ x acc, sep +:+ x +:+ acc) EmptyString rest.
Proof.
  unfold join. revert id. induction rest as [|x rest IH]; intros id.
  - simpl. by rewrite append_empty_r.
  - change (String.concat sep (id :: x :: rest))
      with (id +:+ sep +:+ String.concat sep (x :: rest)).
    by rewrite IH.
Qed.

(** X13: a non-empty tag list reaches the query as one string, the ids
    joined by commas in the caller's order; an empty list is dropped like an
    omitted one. *)
Theorem list_tasks_tag_ids_joined status priority_min priority_max project_id tag_ids
    query due_before due_after page limit :
  list_tasks_params status priority_min priority_max project_id tag_ids
    query due_before due_after page limit !! "tag_ids"
  = (ids ← tag_ids;
     match ids with
     | [] => None
     | id :: rest => Some (VStr (id +:+ foldr (λ x acc, "," +:+ x +:+ acc) EmptyString rest))
     end).
Proof.
  unfold list_tasks_params.
  do 3 (rewrite lookup_put_if_ne; [|done]).
  rewrite lookup_put_if_eq; [|by do 4 (rewrite lookup_put_if_ne; [|done])].
  destruct tag_ids as [[|id rest]|]; [done| |done].
  change (Some (VStr (join "," (id :: rest)))
          = Some (VStr (id +:+ foldr (λ x acc, "," +:+ x +:+ acc) EmptyString rest))).
  by rewrite join_cons.
Qed.

(** X14: [due_before] and [due_after] are in the query exactly when
    supplied, as the ISO text of the datetime. *)
Theorem list_tasks_due_bounds status priority_min priority_max project_id tag_ids
    query due_before due_after page limit :
  list_tasks_params status priority_min priority_max project_id tag_ids
    query due_before due_after page limit !! "due_before"
    = (t ← due_before; Some (VStr (isoformat t)))
  ∧ list_tasks_params status priority_min priority_max project_id tag_ids
      query due_before due_after page limit !! "due_after"
    = (t ← due_after; Some (VStr (isoformat t))).
Proof.
  unfold list_tasks_params. split.
  - rewrite lookup_put_if_ne; [|done].
    rewrite lookup_put_if_eq; [|by do 6 (rewrite lookup_put_if_ne; [|done])].
    by destruct due_before.
  - rewrite lookup_put_if_eq; [|by do 7 (rewrite lookup_put_if_ne; [|done])].
    by destruct due_after.
Qed.

(** X15: [status] and [search] are in the query exactly when supplied and
    not empty, [priority_max] exactly when supplied and not zero; each with
    the caller's value unchanged. *)
Theorem list_tasks_plain_filters status priority_min priority_max project_id tag_ids
    query due_before due_after page limit :
  list_tasks_params status priority_min priority_max project_id tag_ids
    query due_before due_after page limit !! "status"
    = (s ← status; if decide (s = EmptyString) then None else Some (VStr s))
  ∧ list_tasks_params status priority_min priority_max project_id tag_ids
      query due_before due_after page limit !! "search"
    = (s ← query; if decide (s = EmptyString) then None else Some (VStr s))
  ∧ list_tasks_params status priority_min priority_max project_id tag_ids
      query due_before due_after page limit !! "priority_max"
    = (n ← priority_max; if decide (n = 0) then None else Some (VInt n)).
Proof.
  unfold list_tasks_params. split_and!.
  - do 7 (rewrite lookup_put_if_ne; [|done]).
    rewrite lookup_put_if_eq; [|done].
    destruct status as [s|]; simpl; [|done].
    rewrite truth_string_nonempty. by case_decide; case_bool_decide.
  - do 2 (rewrite lookup_put_if_ne; [|done]).
    rewrite lookup_put_if_eq; [|by do 5 (rewrite lookup_put_if_ne; [|done])].
    destruct query as [s|]; simpl; [|done].
    rewrite truth_string_nonempty. by case_decide; case_bool_decide.
  - do 5 (rewrite lookup_put_if_ne; [|done]).
    rewrite lookup_put_if_eq; [|by do 2 (rewrite lookup_put_if_ne; [|done])].
    destruct priority_max as [n|]; simpl; [|done].
    rewrite truth_Z_nonzero. by repeat case_decide; case_bool_decide.
Qed.

(** X16: the query mapping never has a parameter outside the ten names
    the builder writes. *)
Theorem list_tasks_param_names status priority_min priority_max project_id tag_ids
    query due_before due_after page limit :
  dom (list_tasks_params status priority_min priority_max project_id tag_ids
         query due_before due_after page limit)
  ⊆ {["page"; "limit"; "status"; "priority_min"; "priority_max"; "project_ids";
      "tag_ids"; "search"; "due_before"; "due_after"]}.
Proof.
  unfold list_tasks_params.
  repeat (etrans; [apply dom_put_if|]; apply union_least; [set_solver|]).
  rewrite dom_insert_L, dom_singleton_L.
  intros k. rewrite !elem_of_union, !elem_of_singleton. tauto.
Qed.

(** ** Creating a project *)

(** X17: the body [create_project] sends always holds [name]; it holds
    [description] and [parentId] exactly when the caller supplied a
    non-empty string for them, and no other field. *)
Theorem create_project_body name description parent_id st :
  ∃ body, sent_by (create_project service name description parent_id) st
          = [mkRequest "POST" (base_url (self st) +:+ "/projects")
               (headers (session (self st))) None (Some (VDict body))]
    ∧ body !! "name" = Some (VStr name)
    ∧ body !! "description"
      = (s ← description; if decide (s = EmptyString) then None else Some (VStr s))
    ∧ body !! "parentId"
      = (p ← parent_id; if decide (p = EmptyString) then None else Some (VStr p))
    ∧ dom body ⊆ {["name"; "description"; "parentId"]}.
Proof.
  eexists. split; [unfold create_project; by rewrite _request_sent|].
  unfold create_project_data. split_and!.
  - by do 2 (rewrite lookup_put_if_ne; [|done]).
  - rewrite lookup_put_if_ne; [|done].
    rewrite lookup_put_if_eq; [|done].
    destruct description as [s|]; simpl; [|done].
    rewrite truth_string_nonempty. by case_decide; case_bool_decide.
  - rewrite lookup_put_if_eq; [|by rewrite lookup_put_if_ne].
    destruct parent_id as [p|]; simpl; [|done].
    rewrite truth_string_nonempty. by case_decide; case_bool_decide.
  - repeat (etrans; [apply dom_put_if|]; apply union_least; [set_solver|]).
    rewrite dom_singleton_L.
    intros k. rewrite !elem_of_union, !elem_of_singleton. tauto.
Qed.

(** ** What a client keeps over its whole life *)

Lemma run_step_state s st :
  ∃ r, net (run_step service s st) = net st ++ [r]
       ∧ req_headers r = headers (session (self st))
       ∧ base_url (self (run_step service s st)) = base_url (self st)
       ∧ (bearer_json (headers (session (self st))) →
          bearer_json (headers (session (self (run_step service s st))))).
Proof.
  destruct s as [c|]; simpl.
  - destruct (run_state c st) as (r & -> & Hr). by exists r.
  - exists (request_of st "POST" "/auth/refresh" no_kwargs).
    rewrite refresh_token_run.
    destruct (fst _) as [e|[| | | | | |d]]; simpl; try done.
    destruct (d !! "token") as [token|]; simpl; [|done].
    split_and!; try done. intros [Hct _]. split.
    + by rewrite lookup_insert_ne.
    + exists (fmt token). apply lookup_insert_eq.
Qed.

Lemma run_script_state ss st :
  bearer_json (headers (session (self st))) →
  ∃ rs, net (run_script service ss st) = net st ++ rs
        ∧ length rs = length ss
        ∧ Forall (λ r, bearer_json (req_headers r)) rs
        ∧ base_url (self (run_script service ss st)) = base_url (self st)
        ∧ bearer_json (headers (session (self (run_script service ss st)))).
Proof.
  revert st. induction ss as [|s ss IH]; intros st Hst; simpl.
  - exists []. by rewrite app_nil_r.
  - destruct (run_step_state s st) as (r & Hnet & Hr & Hbase & Hkeep).
    destruct (IH (run_step service s st) (Hkeep Hst)) as (rs & -> & Hlen & Hrs & -> & Hend).
    exists (r :: rs). rewrite Hnet, <- app_assoc. simpl.
    split_and!; try done.
    + by rewrite Hlen.
    + constructor; [by rewrite Hr|done].
Qed.

(** X18: take a client as the constructor builds it and let it run any
    sequence of calls and refreshes, successful or not.  Its base URL never
    changes; every step sends exactly one request; every request carries
    [Content-Type: application/json] and an [Authorization] header of the
    form [Bearer ...]; and the client ends with such headers. *)
Theorem client_lifetime_invariant base token ss log :
  let st0 := mkState (__init__ base token) log in
  let st := run_script service ss st0 in
  base_url (self st) = rstrip "/" base
  ∧ net st = log ++ sent_between st0 st
  ∧ length (sent_between st0 st) = length ss
  ∧ Forall (λ r, bearer_json (req_headers r)) (sent_between st0 st)
  ∧ bearer_json (headers (session (self st))).
Proof.
  intros st0 st.
  assert (bearer_json (headers (session (self st0)))) as H0.
  { split; [apply init_content_type|]. exists (fmt token). apply init_authorization. }
  destruct (run_script_state ss st0 H0) as (rs & Hnet & Hlen & Hrs & Hbase & Hend).
  unfold st, sent_between. rewrite Hnet. simpl. rewrite drop_app_length.
  split_and!; try done.
Qed.

End Theory.

(** * The contract on concrete runs *)

#[local] Existing Instance text_runtime.

(** C1, as stated, fails on [refresh_token]: answered by a body whose
    [success] is true but without [data], it raises; answered by one whose
    [data] holds a token, it returns the token, not the [data] field. *)
Lemma refresh_token_not_data_on_success :
  let st := fresh "http://localhost:8080/api/v1" "old" in
  let bare : gmap string value := {["success" := VBool true]} in
  let full : gmap string value :=
    {["success" := VBool true; "data" := VDict {["token" := VStr "new"]}]} in
  (response_to (always (VDict bare)) (refresh_token (always (VDict bare))) st
     = Body (VDict bare)
   ∧ bare !! "success" = Some (VBool true)
   ∧ fst (refresh_token (always (VDict bare)) st) = inl (KeyError "token"))
  ∧ (response_to (always (VDict full)) (refresh_token (always (VDict full))) st
       = Body (VDict full)
     ∧ full !! "success" = Some (VBool true)
     ∧ fst (refresh_token (always (VDict full)) st) = inr (VStr "new")
     ∧ fst (refresh_token (always (VDict full)) st)
       ≠ inr (default (VDict ∅) (full !! "data"))).
Proof. vm_compute. split_and!; try reflexivity. discriminate. Qed.

(** A successful envelope with a payload, answered to [get_today_tasks]. *)
Lemma call_returns_data_on_success_witness :
  let st := fresh "http://localhost:8080/api/v1/" "token" in
  let env : gmap string value :=
    {["success" := VBool true; "data" := VDict {["tasks" := VList []]}]} in
  response_to (always (VDict env)) (run (always (VDict env)) GetTodayTasks) st
    = Body (VDict env)
  ∧ env !! "success" = Some (VBool true)
  ∧ fst (run (always (VDict env)) GetTodayTasks st) = inr (VDict {["tasks" := VList []]}).
Proof.
  intros st env. split_and!; [reflexivity|reflexivity|].
  apply (call_returns_data_on_success (always (VDict env)) GetTodayTasks st env);
    reflexivity.
Defined.

(** C2 fails on [register] and [login]: where the [error] object has
    neither [code] nor [message], both raise with [None] in their place and
    without the [details], while a method that goes through [_request]
    raises with the placeholders and the [details] for the same body. *)
Theorem register_login_raise_without_defaults :
  let body := VDict {["success" := VBool false;
                      "error" := VDict {["details" := VStr "rate limited"]}]} in
  fst (register (always body) "http://localhost:8080/api/v1" "a@example.org" "secret" [])
    = inl (TodoMeError VNone VNone VNone)
  ∧ fst (login (always body) "http://localhost:8080/api/v1" "a@example.org" "secret" [])
    = inl (TodoMeError VNone VNone VNone)
  ∧ error_text VNone VNone = "None: None"
  ∧ fst (get_today_tasks (always body) (fresh "http://localhost:8080/api/v1" "token"))
    = inl (TodoMeError (VStr "UNKNOWN_ERROR") (VStr "Unknown error") (VStr "rate limited")).
Proof. vm_compute. split_and!; reflexivity. Qed.

(** C3, as stated, fails: with [priority_min = 0] the query mapping is just
    [{page: 1, limit: 20}]. *)
Lemma priority_min_zero_dropped :
  let st := fresh "http://localhost:8080/api/v1" "token" in
  let ok := always (VDict {["success" := VBool true]}) in
  sent_by (list_tasks ok None (Some 0) None None None None None None None None) st
    = [mkRequest "GET" "http://localhost:8080/api/v1/tasks" (headers (session (self st)))
         (Some {["page" := VInt 1; "limit" := VInt 20]}) None]
  ∧ list_tasks_params None (Some 0) None None None None None None None None
      !! "priority_min" ≠ Some (VInt 0).
Proof. vm_compute. split; [reflexivity|discriminate]. Qed.

(** C7, as stated, fails: a supplied project id travels as [project_ids],
    and the mapping has nothing under [project_id]. *)
Lemma project_id_sent_as_project_ids :
  let st := fresh "http://localhost:8080/api/v1" "token" in
  let ok := always (VDict {["success" := VBool true]}) in
  sent_by (list_tasks ok None None None (Some "p1") None None None None None None) st
    = [mkRequest "GET" "http://localhost:8080/api/v1/tasks" (headers (session (self st)))
         (Some {["page" := VInt 1; "limit" := VInt 20; "project_ids" := VStr "p1"]}) None]
  ∧ list_tasks_params None None None (Some "p1") None None None None None None
      !! "project_id" ≠ Some (VStr "p1").
Proof. vm_compute. split; [reflexivity|discriminate]. Qed.

(** C8, as stated, fails: a supplied empty description, project reference
    or tag list is not in the body. *)
Lemma create_task_drops_empty_description :
  let st := fresh "http://localhost:8080/api/v1" "token" in
  let ok := always (VDict {["success" := VBool true]}) in
  sent_by (create_task ok "Buy milk" (Some EmptyString) None None (Some EmptyString)
             (Some [])) st
    = [mkRequest "POST" "http://localhost:8080/api/v1/tasks" (headers (session (self st)))
         None (Some (VDict {["title" := VStr "Buy milk"; "priority" := VInt 3]}))]
  ∧ create_task_data "Buy milk" (Some EmptyString) None None None None !! "description"
    ≠ Some (VStr EmptyString).
Proof. vm_compute. split; [reflexivity|discriminate]. Qed.

(** C4, as stated, fails: [batch_complete([])] and [batch_delete([])] each
    put a request on the wire and return what the service answers. *)
Lemma empty_batch_not_rejected :
  let st := fresh "http://localhost:8080/api/v1" "token" in
  let ok := always (VDict {["success" := VBool true; "data" := VDict {["results" := VList []]}]}) in
  sent_by (batch_complete ok []) st
    = [mkRequest "POST" "http://localhost:8080/api/v1/batch" (headers (session (self st)))
         None (Some (VDict {["operations" := VList []]}))]
  ∧ sent_by (batch_delete ok []) st ≠ []
  ∧ fst (batch_complete ok [] st) = inr (VDict {["results" := VList []]})
  ∧ fst (batch_delete ok [] st) = inr (VDict {["results" := VList []]}).
Proof. vm_compute. split_and!; try reflexivity. discriminate. Qed.

(** An empty [batch_delete] against a service that reports success. *)
Lemma empty_batch_is_submitted_witness :
  let st := fresh "http://localhost:8080/api/v1" "token" in
  let env : gmap string value := {["success" := VBool true]} in
  response_to (always (VDict env)) (batch (always (VDict env)) Delete []) st
    = Body (VDict env)
  ∧ env !! "success" = Some (VBool true)
  ∧ fst (batch (always (VDict env)) Delete [] st) = inr (VDict ∅).
Proof.
  intros st env. split_and!; [reflexivity|reflexivity|].
  apply (proj2 (empty_batch_is_submitted (always (VDict env)) Delete st) env);
    reflexivity.
Defined.

(** The batch of the specification's example. *)
Example batch_complete_t1_t2_t3 :
  let st := fresh "http://localhost:8080/api/v1" "token" in
  let ok := always (VDict {["success" := VBool true]}) in
  sent_by (batch_complete ok ["t1"; "t2"; "t3"]) st
  = [mkRequest "POST" "http://localhost:8080/api/v1/batch" (headers (session (self st)))
       None
       (Some (VDict {["operations" := VList [
          VDict {["action" := VStr "complete"; "taskId" := VStr "t1"]};
          VDict {["action" := VStr "complete"; "taskId" := VStr "t2"]};
          VDict {["action" := VStr "complete"; "taskId" := VStr "t3"]}]]}))].
Proof. vm_compute. reflexivity. Qed.

(** A refresh from [old] to [new], followed by three calls. *)
Lemma refresh_token_then_calls_witness :
  let st := fresh "http://localhost:8080/api/v1" "old" in
  let svc := always (VDict {["success" := VBool true;
                             "data" := VDict {["token" := VStr "new"]}]}) in
  let st' := snd (refresh_token svc st) in
  refresh_token svc st = (inr (VStr "new"), st')
  ∧ authorization st = Some "Bearer old"
  ∧ authorization st' = Some "Bearer new"
  ∧ Forall (λ r, req_headers r !! "Authorization" = Some "Bearer new")
           (sent_between st' (run_all svc [GetTodayTasks; DeleteTask "t1"; ListTags] st'))
  ∧ Forall (λ r, req_headers r !! "Authorization" ≠ Some "Bearer old")
           (sent_between st' (run_all svc [GetTodayTasks; DeleteTask "t1"; ListTags] st'))
  ∧ length (sent_between st' (run_all svc [GetTodayTasks; DeleteTask "t1"; ListTags] st'))
    = 3%nat
  ∧ ∃ r, sent_by (run svc ListTags) (run_all svc [GetTodayTasks; DeleteTask "t1"] st') = [r]
         ∧ req_headers r !! "Authorization" = Some "Bearer new".
Proof.
  intros st svc st'.
  assert (refresh_token svc st = (inr (VStr "new"), st')) as Hrun by reflexivity.
  destruct (refresh_token_then_calls svc st (VStr "new") st' Hrun)
    as (Hauth & Hnew & Hold & _ & Hnext & Hcount & _).
  split_and!; [exact Hrun|reflexivity|exact Hauth|apply Hnew| | |].
  - apply (Hold "Bearer old"); [reflexivity|discriminate].
  - apply (Hcount [GetTodayTasks; DeleteTask "t1"; ListTags]).
  - apply (Hnext [GetTodayTasks; DeleteTask "t1"] ListTags).
Defined.

(** A refresh whose successful envelope has no [token], followed by two calls. *)
Lemma refresh_token_failure_keeps_credential_witness :
  let st := fresh "http://localhost:8080/api/v1" "old" in
  let svc := always (VDict {["success" := VBool true; "data" := VDict ∅]}) in
  let st' := snd (refresh_token svc st) in
  refresh_token svc st = (inl (KeyError "token"), st')
  ∧ self st' = self st
  ∧ authorization st' = Some "Bearer old"
  ∧ Forall (λ r, req_headers r = headers (session (self st)))
           (sent_between st' (run_all svc [GetTodayTasks; ListTags] st')).
Proof.
  intros st svc st'.
  assert (refresh_token svc st = (inl (KeyError "token"), st')) as Hrun by reflexivity.
  destruct (refresh_token_failure_keeps_credential svc st _ st' Hrun) as (Hself & Hauth & Hcalls).
  split_and!; [exact Hrun|exact Hself| |apply Hcalls].
  rewrite Hauth. reflexivity.
Defined.

(** An envelope that reports failure leaves the credential alone as well. *)
Example refresh_token_rejected_keeps_credential :
  let st := fresh "http://localhost:8080/api/v1" "old" in
  let svc := always (VDict {["success" := VBool false;
                             "error" := VDict {["code" := VStr "TOKEN_EXPIRED"]}]}) in
  fst (refresh_token svc st)
    = inl (TodoMeError (VStr "TOKEN_EXPIRED") (VStr "Unknown error") VNone)
  ∧ authorization (snd (refresh_token svc st)) = Some "Bearer old".
Proof. vm_compute. split; reflexivity. Qed.

(** The comma-separated tag filter of the specification's example. *)
Example list_tasks_tag_ids :
  list_tasks_params None None None None (Some ["a"; "b"]) None None None None None
  = {["page" := VInt 1; "limit" := VInt 20; "tag_ids" := VStr "a,b"]}.
Proof. vm_compute. reflexivity. Qed.

(** ** Further concrete runs *)

(** A [success] of [1] counts as success, and a [data] of [null] is
    returned as it is. *)
Lemma _request_by_truth_of_success_witness :
  let st := fresh "http://localhost:8080/api/v1" "token" in
  let env : gmap string value := {["success" := VInt 1; "data" := VNone]} in
  response_to (always (VDict env)) (_request (always (VDict env)) "GET" "/tags" no_kwargs) st
    = Body (VDict env)
  ∧ fst (_request (always (VDict env)) "GET" "/tags" no_kwargs st) = inr VNone.
Proof.
  intros st env. split; [reflexivity|].
  rewrite (_request_by_truth_of_success (always (VDict env)) "GET" "/tags" no_kwargs st env);
    reflexivity.
Defined.

(** A body that is a JSON list. *)
Lemma _request_non_object_body_witness :
  let st := fresh "http://localhost:8080/api/v1" "token" in
  response_to (always (VList [])) (_request (always (VList [])) "GET" "/tags" no_kwargs) st
    = Body (VList [])
  ∧ (∀ env, VList [] ≠ VDict env)
  ∧ fst (_request (always (VList [])) "GET" "/tags" no_kwargs st)
    = inl (AttributeError "get").
Proof.
  intros st. split_and!; [reflexivity|discriminate|].
  apply (_request_non_object_body (always (VList [])) "GET" "/tags" no_kwargs st (VList []));
    [reflexivity|discriminate].
Defined.

(** A search against a service that cannot be reached. *)
Lemma call_transport_failure_witness :
  let st := fresh "http://localhost:8080/api/v1" "token" in
  response_to unreachable (run unreachable (Search "meeting" None)) st
    = Broken "connection refused"
  ∧ fst (run unreachable (Search "meeting" None) st)
    = inl (TransportFailure "connection refused")
  ∧ self (snd (run unreachable (Search "meeting" None) st)) = self st
  ∧ length (sent_by (run unreachable (Search "meeting" None)) st) = 1%nat.
Proof.
  intros st. split; [reflexivity|].
  apply (call_transport_failure unreachable (Search "meeting" None) st "connection refused").
  reflexivity.
Defined.

(** A registration that is granted the token [abc]. *)
Lemma register_returns_authenticated_client_witness :
  let svc := always (VDict {["success" := VBool true;
                             "data" := VDict {["token" := VStr "abc"]}]}) in
  let client := __init__ "http://localhost:8080/api/v1/" (VStr "abc") in
  fst (register svc "http://localhost:8080/api/v1/" "a@example.org" "secret" []) = inr client
  ∧ base_url client = "http://localhost:8080/api/v1"
  ∧ Forall (λ r, req_headers r !! "Authorization" = Some "Bearer abc")
           (sent_between (mkState client [])
              (run_all svc [GetTodayTasks; ListProjects] (mkState client []))).
Proof.
  intros svc client.
  assert (fst (register svc "http://localhost:8080/api/v1/" "a@example.org" "secret" [])
          = inr client) as Hret by reflexivity.
  destruct (register_returns_authenticated_client svc _ _ _ _ _ Hret)
    as (env & payload & token & Hreply & _ & Hdata & Htok & _ & Hcalls).
  injection Hreply as <-.
  vm_compute in Hdata. injection Hdata as <-.
  vm_compute in Htok. injection Htok as <-.
  split_and!; [exact Hret|reflexivity|].
  exact (Hcalls [] [GetTodayTasks; ListProjects]).
Defined.

(** A login that is granted the token [xyz]. *)
Lemma login_returns_authenticated_client_witness :
  let svc := always (VDict {["success" := VBool true;
                             "data" := VDict {["token" := VStr "xyz"]}]}) in
  let client := __init__ "http://localhost:8080/api/v1" (VStr "xyz") in
  fst (login svc "http://localhost:8080/api/v1" "a@example.org" "secret" []) = inr client
  ∧ Forall (λ r, req_headers r !! "Authorization" = Some "Bearer xyz")
           (sent_between (mkState client [])
              (run_all svc [ListTags; Undo "u1"] (mkState client []))).
Proof.
  intros svc client.
  assert (fst (login svc "http://localhost:8080/api/v1" "a@example.org" "secret" [])
          = inr client) as Hret by reflexivity.
  destruct (login_returns_authenticated_client svc _ _ _ _ _ Hret)
    as (env & payload & token & Hreply & _ & Hdata & Htok & _ & Hcalls).
  injection Hreply as <-.
  vm_compute in Hdata. injection Hdata as <-.
  vm_compute in Htok. injection Htok as <-.
  split; [exact Hret|].
  exact (Hcalls [] [ListTags; Undo "u1"]).
Defined.

(** A successful envelope without [data], answered to both class methods. *)
Lemma credentials_missing_payload_witness :
  let env : gmap string value := {["success" := VBool true]} in
  let svc := always (VDict env) in
  env !! "data" = None
  ∧ fst (register svc "http://localhost:8080/api/v1" "a@example.org" "secret" [])
    = inl (KeyError "data")
  ∧ fst (login svc "http://localhost:8080/api/v1" "a@example.org" "secret" [])
    = inl (KeyError "data").
Proof.
  intros env svc. split; [reflexivity|].
  apply (credentials_missing_payload svc "http://localhost:8080/api/v1"
           "a@example.org" "secret" [] env); reflexivity.
Defined.

(** A refresh from [old] to [new] under a client with a custom header. *)
Lemma refresh_token_success_witness :
  let st := fresh "http://localhost:8080/api/v1" "old" in
  let payload : gmap string value := {["token" := VStr "new"]} in
  let env : gmap string value := {["success" := VBool true; "data" := VDict payload]} in
  let svc := always (VDict env) in
  fst (refresh_token svc st) = inr (VStr "new")
  ∧ sent_by (refresh_token svc) st
    = [mkRequest "POST" "http://localhost:8080/api/v1/auth/refresh"
         (headers (session (self st))) None None]
  ∧ authorization st = Some "Bearer old"
  ∧ authorization (snd (refresh_token svc st)) = Some "Bearer new"
  ∧ headers (session (self (snd (refresh_token svc st)))) !! "Content-Type"
    = Some "application/json".
Proof.
  intros st payload env svc.
  destruct (refresh_token_success svc st env payload (VStr "new"))
    as (Hret & Hsent & _ & Hauth & Hrest); try reflexivity.
  split_and!; [exact Hret|exact Hsent|reflexivity|exact Hauth|].
  rewrite Hrest; [reflexivity|discriminate].
Defined.

(** A successful envelope whose [data] is [null]. *)
Lemma refresh_token_non_object_payload_witness :
  let st := fresh "http://localhost:8080/api/v1" "old" in
  let env : gmap string value := {["success" := VBool true; "data" := VNone]} in
  let svc := always (VDict env) in
  env !! "data" = Some VNone
  ∧ fst (refresh_token svc st) = inl TypeError
  ∧ self (snd (refresh_token svc st)) = self st.
Proof.
  intros st env svc. split; [reflexivity|].
  apply (refresh_token_non_object_payload svc st env VNone);
    [reflexivity|reflexivity|reflexivity|discriminate].
Defined.
